(** * TrendLens.ML forecast service (ml_service.py)

    A shallow embedding of [src/TrendLens.ML/ml_service.py]: the
    [SalesForecastModel] class (feature extraction, train, predict,
    load_model), the module-level [forecast_model] singleton together with
    the two artifact files it dumps and loads, and the four Flask handlers.

    Numbers are IEEE binary64 values (Rocq's primitive [float]) and Python
    integers ([Z]).  The numerical routines of pandas, numpy and
    scikit-learn that the service calls but does not contain (date parsing,
    column statistics, the least-squares solver, the regressor's matrix
    product, the string-to-float parser), and the answer of the file
    system to a dump, are parameters of the development; everything the
    service
    itself decides (control flow, state updates, the order in which things
    may fail, the response assembly) is written out. *)

From Stdlib Require Import ZArith Floats Ascii String.
From stdpp Require Import gmap strings list.

Set Warnings "-inexact-float".
Local Open Scope Z_scope.

(** ** Exceptions and results *)

Inductive exn : Type :=
  | KeyError (key : string)
  | AttributeError
  | ParserError
  | ValueError
  | NotFittedError
  | OverflowError
  | LinAlgError
  | FileNotFoundError (path : string)
  | UnpicklingError
  | OSError (path : string).

Inductive result (A : Type) : Type :=
  | Ok (a : A)
  | Raise (e : exn).
Arguments Ok {A} a.
Arguments Raise {A} e.

Definition result_bind {A B} (r : result A) (k : A -> result B) : result B :=
  match r with
  | Ok a => k a
  | Raise e => Raise e
  end.

Fixpoint result_mapM {A B} (f : A -> result B) (l : list A) : result (list B) :=
  match l with
  | [] => Ok []
  | a :: l' =>
      result_bind (f a) (fun b =>
      result_bind (result_mapM f l') (fun bs => Ok (b :: bs)))
  end.

(** ** JSON scalars and Python numbers *)

Inductive json : Type :=
  | JNull
  | JInt (z : Z)
  | JFloat (f : float)
  | JStr (s : string).

(** A JSON object whose values are scalars: one sales record. *)
Abbreviation record := (gmap string json).

(** The values of the two [customer_data] fields: a JSON number is a Python
    [int] or a Python [float]. *)
Inductive pynum : Type :=
  | PInt (z : Z)
  | PFloat (f : float).

(** Conversion of a Python integer to binary64, round to nearest even. *)
Definition float_of_Z (z : Z) : float :=
  SF2Prim (binary_normalize prec emax z 0 false).

(** [float(n)] and the implicit conversion in mixed arithmetic: Python
    raises [OverflowError] where the rounded value is out of range. *)
Definition py_float_of_int (z : Z) : result float :=
  let f := float_of_Z z in
  if is_infinity f then Raise OverflowError else Ok f.

(** Python's [*] on numbers. *)
Definition py_mul (a b : pynum) : result pynum :=
  match a, b with
  | PInt x, PInt y => Ok (PInt (x * y))
  | PInt x, PFloat y =>
      result_bind (py_float_of_int x) (fun fx => Ok (PFloat (fx * y)%float))
  | PFloat x, PInt y =>
      result_bind (py_float_of_int y) (fun fy => Ok (PFloat (x * fy)%float))
  | PFloat x, PFloat y => Ok (PFloat (x * y)%float)
  end.

(** Python's [float(v)] on a number. *)
Definition py_float (v : pynum) : result float :=
  match v with
  | PInt z => py_float_of_int z
  | PFloat f => Ok f
  end.

(** ** Timestamps and the three calendar attributes *)

Record Timestamp : Type := mkTimestamp { year : Z; month : Z; day : Z }.

Definition is_leap (y : Z) : bool :=
  (y mod 4 =? 0) && (negb (y mod 100 =? 0) || (y mod 400 =? 0)).

Definition days_before_month (y m : Z) : Z :=
  let cumul := [0; 31; 59; 90; 120; 151; 181; 212; 243; 273; 304; 334] in
  nth (Z.to_nat (m - 1)) cumul 0 + (if (2 <? m) && is_leap y then 1 else 0).

(** [.dt.dayofyear]: 1 for the first of January. *)
Definition dayofyear (t : Timestamp) : Z :=
  days_before_month (year t) (month t) + day t.

(** Proleptic Gregorian ordinal, 1 for 0001-01-01. *)
Definition toordinal (t : Timestamp) : Z :=
  let y := year t - 1 in
  y * 365 + y / 4 - y / 100 + y / 400 + dayofyear t.

(** [.dt.dayofweek]: Monday is 0, Sunday is 6. *)
Definition dayofweek (t : Timestamp) : Z :=
  (toordinal t + 6) mod 7.

(** ** Series and data frames

    A column holds raw JSON cells, timestamps ([None] is NaT) or integer
    features ([None] is the NaN that an attribute of NaT gives).  A frame
    maps column names to columns; [data[c] = v] is map insertion. *)

Definition feat := option Z.

Inductive Series : Type :=
  | SObject (cells : list json)
  | SDatetime (stamps : list (option Timestamp))
  | SNumeric (values : list feat).

Abbreviation DataFrame := (gmap string Series).

(** [pd.DataFrame(sales_data)] for a list of records: one column per key
    that occurs in some record, a missing cell is null. *)
Definition DataFrame_of_records (rs : list record) : DataFrame :=
  let keys : gset string := ⋃ (dom <$> rs) in
  set_to_map (fun k => (k, SObject ((fun r : record => default JNull (r !! k)) <$> rs))) keys.

(** [data[c]] *)
Definition getitem (data : DataFrame) (c : string) : result Series :=
  match data !! c with
  | Some s => Ok s
  | None => Raise (KeyError c)
  end.

(** [data[c].dt], defined on datetime columns only. *)
Definition dt (data : DataFrame) (c : string) : result (list (option Timestamp)) :=
  result_bind (getitem data c) (fun s =>
    match s with
    | SDatetime ts => Ok ts
    | _ => Raise AttributeError
    end).

(** A feature row and a scaled feature row. *)
Definition frow : Type := feat * feat * feat.
Definition srow : Type := float * float * float.

Definition feat_to_float (x : feat) : float :=
  match x with
  | Some z => float_of_Z z
  | None => nan
  end.

Fixpoint zip3 {A} (a b c : list A) : list (A * A * A) :=
  match a, b, c with
  | x :: a', y :: b', z :: c' => (x, y, z) :: zip3 a' b' c'
  | _, _, _ => []
  end.

(** The three attributes of one timestamp. *)
Definition features_of (t : option Timestamp) : frow :=
  (option_map dayofyear t, option_map month t, option_map dayofweek t).

(** One attribute over a datetime column. *)
Definition attribute (f : Timestamp -> Z) (ts : list (option Timestamp)) : list feat :=
  map (option_map f) ts.

(** ** The fitted objects *)

(** [StandardScaler]: [mean_] and [scale_] once fitted. *)
Record ScalerParams : Type := mkScaler { mean_ : srow; scale_ : srow }.

(** [LinearRegression]: [coef_] and [intercept_] once fitted. *)
Record LRParams : Type := mkLR { coef_ : srow; intercept_ : float }.

(** [None] is the object as its constructor leaves it: not fitted. *)
Definition StandardScaler : Type := option ScalerParams.
Definition LinearRegression : Type := option LRParams.

(** [(x - mean_) / scale_], column by column. *)
Definition transform_row (p : ScalerParams) (x : frow) : srow :=
  let '(x1, x2, x3) := x in
  let '(m1, m2, m3) := mean_ p in
  let '(s1, s2, s3) := scale_ p in
  ((feat_to_float x1 - m1) / s1, (feat_to_float x2 - m2) / s2,
   (feat_to_float x3 - m3) / s3)%float.

Definition row_finite (x : srow) : bool :=
  let '(x1, x2, x3) := x in is_finite x1 && is_finite x2 && is_finite x3.

(** ** The process state: the singleton and the working directory *)

Record SalesForecastModel : Type := mkModel {
  model : LinearRegression;
  scaler : StandardScaler;
  is_trained : bool
}.

(** [SalesForecastModel.__init__] *)
Definition init : SalesForecastModel :=
  {| model := None; scaler := None; is_trained := false |}.

(** A file written by [joblib.dump] holds the dumped object; any other
    content of the file fails to load. *)
Inductive pickle (A : Type) : Type :=
  | Pickled (a : A)
  | Corrupt.
Arguments Pickled {A} a.
Arguments Corrupt {A}.

(** The two artifact paths; [None] is a path that does not exist. *)
Record Disk : Type := mkDisk {
  sales_model_pkl : option (pickle LinearRegression);
  scaler_pkl : option (pickle StandardScaler)
}.

Definition no_artifacts : Disk :=
  {| sales_model_pkl := None; scaler_pkl := None |}.

Record World : Type := mkWorld {
  forecast_model : SalesForecastModel;
  disk : Disk
}.

(** A fresh process in a given working directory. *)
Definition start (d : Disk) : World :=
  {| forecast_model := init; disk := d |}.

(** ** State and exceptions *)

Definition M (A : Type) : Type := World -> World * result A.

Definition ret {A} (a : A) : M A := fun w => (w, Ok a).
Definition raise {A} (e : exn) : M A := fun w => (w, Raise e).
Definition bind {A B} (m : M A) (k : A -> M B) : M B :=
  fun w =>
    match m w with
    | (w', Ok a) => k a w'
    | (w', Raise e) => (w', Raise e)
    end.
Definition lift {A} (r : result A) : M A := fun w => (w, r).

Declare Scope py_scope.
Delimit Scope py_scope with py.
Notation "x <- m ;; k" := (bind m (fun x => k))
  (at level 100, m at next level, right associativity) : py_scope.
Notation "m ;;; k" := (bind m (fun _ => k))
  (at level 100, right associativity) : py_scope.

Definition get_self : M SalesForecastModel := fun w => (w, Ok (forecast_model w)).
Definition get_disk : M Disk := fun w => (w, Ok (disk w)).

Definition set_model (m : LinearRegression) : M unit := fun w =>
  let s := forecast_model w in
  ({| forecast_model := {| model := m; scaler := scaler s; is_trained := is_trained s |};
      disk := disk w |}, Ok tt).

Definition set_scaler (sc : StandardScaler) : M unit := fun w =>
  let s := forecast_model w in
  ({| forecast_model := {| model := model s; scaler := sc; is_trained := is_trained s |};
      disk := disk w |}, Ok tt).

Definition set_is_trained (b : bool) : M unit := fun w =>
  let s := forecast_model w in
  ({| forecast_model := {| model := model s; scaler := scaler s; is_trained := b |};
      disk := disk w |}, Ok tt).

(** What the file system does with a [joblib.dump] to a path: the file
    is written; or it cannot be opened for writing (no permission, a
    directory in its place) and stays as it is; or it is opened, hence
    truncated, and the write breaks off (a full disk), which leaves a
    file that does not load.  The last two raise. *)
Inductive write_outcome : Type :=
  | Written
  | Refused
  | Torn.

(** [joblib.load(path)] on one of the two paths. *)
Definition joblib_load {A} (path : string) (file : option (pickle A)) : result A :=
  match file with
  | Some (Pickled a) => Ok a
  | Some Corrupt => Raise UnpicklingError
  | None => Raise (FileNotFoundError path)
  end.

(** [os.path.exists(path)] *)
Definition exists_ {A} (file : option (pickle A)) : bool :=
  match file with Some _ => true | None => false end.

(** ** The feature extractor

    [prepare_features(self, data)], statement by statement: each of the
    three assignments reads [data['Date'].dt] and stores a column in
    [data] itself; the value returned is the three-column selection, here
    as its row matrix.  The frame after the call is returned next to it,
    because the caller's frame is the one that was assigned to. *)

Definition numeric_column (data : DataFrame) (c : string) : result (list feat) :=
  result_bind (getitem data c) (fun s =>
    match s with
    | SNumeric v => Ok v
    | _ => Raise ValueError
    end).

(** [data[['day_of_year', 'month', 'day_of_week']]] *)
Definition select_features (data : DataFrame) : result (list frow) :=
  result_bind (numeric_column data "day_of_year") (fun c1 =>
  result_bind (numeric_column data "month") (fun c2 =>
  result_bind (numeric_column data "day_of_week") (fun c3 =>
  Ok (zip3 c1 c2 c3)))).

Definition prepare_features (data : DataFrame) : result (DataFrame * list frow) :=
  result_bind (dt data "Date") (fun d1 =>
  let data := <["day_of_year" := SNumeric (attribute dayofyear d1)]> data in
  result_bind (dt data "Date") (fun d2 =>
  let data := <["month" := SNumeric (attribute month d2)]> data in
  result_bind (dt data "Date") (fun d3 =>
  let data := <["day_of_week" := SNumeric (attribute dayofweek d3)]> data in
  result_bind (select_features data) (fun X =>
  Ok (data, X))))).

(** The frame [prepare_features] leaves behind, given the timestamps of
    the [Date] column. *)
Definition with_features (ts : list (option Timestamp)) (data : DataFrame) : DataFrame :=
  <["day_of_week" := SNumeric (attribute dayofweek ts)]>
    (<["month" := SNumeric (attribute month ts)]>
       (<["day_of_year" := SNumeric (attribute dayofyear ts)]> data)).

(** ** Requests and responses *)

Record TrainRequest : Type := { sales_data : option (list record) }.
Record PredictRequest : Type := { dates : option (list json) }.
Record CustomerValueRequest : Type := { customer_data : option (gmap string pynum) }.

Record Prediction : Type := mkPrediction {
  date : json;
  predicted_amount : float;
  confidence_interval : float
}.

Inductive Body : Type :=
  | BStatus (status : string)
  | BMessage (message : string)
  | BPredictions (result : list Prediction)
  | BCustomerValue (predicted_lifetime_value : float) (confidence : float)
  | BError (error : exn).

(** A response: the JSON body and the HTTP status code. *)
Definition Response : Type := Body * Z.

(** [try: return jsonify(body)  except Exception as e: return
    jsonify({'error': str(e)}), 500] *)
Definition try_except (m : M Body) : World -> World * Response :=
  fun w =>
    match m w with
    | (w', Ok b) => (w', (b, 200))
    | (w', Raise e) => (w', (BError e, 500))
    end.

(** ** Reference instances of the library routines

    The service is parametric in four library routines (see the section
    below).  The instances here are used to run it on concrete requests:
    a parser for the ISO calendar-date fragment of [pandas.to_datetime]
    (the empty string and null are NaT there, as in pandas), the textbook
    column mean and population standard deviation with a zero deviation
    replaced by one, the least-squares solution for a feature matrix
    whose rows are all equal (zero coefficients, the mean amount as
    intercept), the textbook dot product, summed from left to right, for
    the regressor's output, and a file system on which every dump
    succeeds. *)

Definition digit (c : ascii) : option Z :=
  let n := Z.of_nat (nat_of_ascii c) in
  if (48 <=? n) && (n <=? 57) then Some (n - 48) else None.

Fixpoint number (cs : list ascii) (acc : Z) : option Z :=
  match cs with
  | [] => Some acc
  | c :: cs' =>
      match digit c with
      | Some d => number cs' (10 * acc + d)
      | None => None
      end
  end.

Definition days_in_month (y m : Z) : Z :=
  if m =? 2 then (if is_leap y then 29 else 28)
  else if (m =? 4) || (m =? 6) || (m =? 9) || (m =? 11) then 30 else 31.

Definition parse_iso_date (s : string) : option Timestamp :=
  match list_ascii_of_string s with
  | [y1; y2; y3; y4; sep1; m1; m2; sep2; d1; d2] =>
      match number [y1; y2; y3; y4] 0, number [m1; m2] 0, number [d1; d2] 0 with
      | Some y, Some m, Some d =>
          if Ascii.eqb sep1 "-"%char && Ascii.eqb sep2 "-"%char && (1 <=? y)
             && (1 <=? m) && (m <=? 12) && (1 <=? d) && (d <=? days_in_month y m)
          then Some (mkTimestamp y m d) else None
      | _, _, _ => None
      end
  | _ => None
  end.

Definition iso_cell (c : json) : result (option Timestamp) :=
  match c with
  | JNull => Ok None
  | JStr EmptyString => Ok None
  | JStr s =>
      match parse_iso_date s with
      | Some t => Ok (Some t)
      | None => Raise ParserError
      end
  | _ => Raise ParserError
  end.

Definition iso_to_datetime (s : Series) : result (list (option Timestamp)) :=
  match s with
  | SObject cells => result_mapM iso_cell cells
  | SDatetime ts => Ok ts
  | SNumeric _ => Raise ParserError
  end.

Definition column_mean (xs : list float) : float :=
  (fold_right PrimFloat.add 0 xs / float_of_Z (Z.of_nat (length xs)))%float.

Definition column_scale (xs : list float) : float :=
  let m := column_mean xs in
  let s := PrimFloat.sqrt (column_mean (map (fun x => ((x - m) * (x - m))%float) xs)) in
  if PrimFloat.eqb s 0 then 1%float else s.

Definition known (c : list feat) : list float :=
  omap (option_map float_of_Z) c.

Definition naive_scaler_stats (X : list frow) : ScalerParams :=
  let c1 := known (map (fun r => fst (fst r)) X) in
  let c2 := known (map (fun r => snd (fst r)) X) in
  let c3 := known (map snd X) in
  {| mean_ := (column_mean c1, column_mean c2, column_mean c3);
     scale_ := (column_scale c1, column_scale c2, column_scale c3) |}.

Definition mean_lstsq (X : list srow) (y : list float) : option LRParams :=
  Some {| coef_ := (0, 0, 0)%float; intercept_ := column_mean y |}.

Definition no_float_of_str (s : string) : option float := None.

Definition predict_row (p : LRParams) (x : srow) : float :=
  let '(x1, x2, x3) := x in
  let '(c1, c2, c3) := coef_ p in
  (x1 * c1 + x2 * c2 + x3 * c3 + intercept_ p)%float.

Definition naive_decision_function (p : LRParams) (X : list srow) : list float :=
  map (predict_row p) X.

Definition always_written (d : Disk) : write_outcome := Written.


(** ** The customer-value law in the spec's words

    [predicted_clv = average_order_value * order_frequency * 24], a missing
    field counting as 0: on two integers the exact product, converted to a
    float once; as soon as one operand is a float, float products from left
    to right.  An integer that has to be converted and does not fit a
    float is the one way the computation can fail. *)

Definition field_or_zero (req : CustomerValueRequest) (k : string) : pynum :=
  match customer_data req with
  | Some cd =>
      match cd !! k with
      | Some v => v
      | None => PInt 0
      end
  | None => PInt 0
  end.

Definition lifetime_value_spec (a f : pynum) : result float :=
  match a, f with
  | PInt x, PInt y => py_float_of_int (x * y * 24)
  | PInt x, PFloat y =>
      result_bind (py_float_of_int x) (fun fx => Ok (fx * y * 24)%float)
  | PFloat x, PInt y =>
      result_bind (py_float_of_int y) (fun fy => Ok (x * fy * 24)%float)
  | PFloat x, PFloat y => Ok (x * y * 24)%float
  end.

Definition customer_value_response (r : result float) : Response :=
  match r with
  | Ok v => (BCustomerValue v 0.8%float, 200)
  | Raise e => (BError e, 500)
  end.

(** ** Example data *)

Definition jan_first : Timestamp := mkTimestamp 2024 1 1.

(** A frame with a single datetime column, as [predict] builds it. *)
Definition example_frame : DataFrame := {[ "Date" := SDatetime [Some jan_first] ]}.

(** A trained model: the minimum-norm least-squares fit for the two
    records 2024-01-01 -> 1 and 2024-01-03 -> 3 (features (1,1,0) and
    (3,1,2), scaled to (-1,0,-1) and (1,0,1)), with both artifacts
    dumped. *)
Definition example_scaler : ScalerParams :=
  {| mean_ := (2, 1, 1)%float; scale_ := (1, 1, 1)%float |}.
Definition example_regressor : LRParams :=
  {| coef_ := (0.5, 0, 0.5)%float; intercept_ := 2%float |}.
Definition trained_model : SalesForecastModel :=
  {| model := Some example_regressor; scaler := Some example_scaler; is_trained := true |}.
Definition both_artifacts : Disk :=
  {| sales_model_pkl := Some (Pickled (Some example_regressor));
     scaler_pkl := Some (Pickled (Some example_scaler)) |}.
Definition trained_world : World :=
  {| forecast_model := trained_model; disk := both_artifacts |}.

(** A working directory holding the regressor artifact only. *)
Definition regressor_only : Disk :=
  {| sales_model_pkl := Some (Pickled (Some example_regressor)); scaler_pkl := None |}.

(** A working directory holding the scaler artifact only. *)
Definition scaler_only : Disk :=
  {| sales_model_pkl := None; scaler_pkl := Some (Pickled (Some example_scaler)) |}.

(** The world a fresh process reaches by training, with the reference
    routines, on the single record 2024-01-01 -> 100. *)
Definition single_sale_world : World :=
  let p := {| coef_ := (0, 0, 0)%float; intercept_ := 100%float |} in
  let s := {| mean_ := (1, 1, 0)%float; scale_ := (1, 1, 1)%float |} in
  {| forecast_model := {| model := Some p; scaler := Some s; is_trained := true |};
     disk := {| sales_model_pkl := Some (Pickled (Some p));
                scaler_pkl := Some (Pickled (Some s)) |} |}.


Definition sale (d : string) (a : json) : record :=
  <["Date" := JStr d]> (<["Amount" := a]> ∅).




(** ** The service *)

Section Service.

(** [pandas.to_datetime] on a column (or a list, which is an object
    column): the parsed timestamps, or the exception it raises. *)
Variable to_datetime : Series -> result (list (option Timestamp)).
(** The statistics [StandardScaler.fit] computes from a feature matrix. *)
Variable scaler_stats : list frow -> ScalerParams.
(** The least-squares solver under [LinearRegression.fit]; [None] when
    the solver itself raises. *)
Variable lstsq : list srow -> list float -> option LRParams.
(** Python's [float(s)] on a string; [None] when it raises. *)
Variable float_of_str : string -> option float.
(** [X @ coef_ + intercept_] on a whole matrix, as numpy computes it: the
    values returned for the rows of [X] (their rounding depends on the
    batch, so this is a function of the matrix, not of a row). *)
Variable decision_function : LRParams -> list srow -> list float.
(** What the file system does with a dump to [sales_model.pkl], and with
    a dump to [scaler.pkl], given the working directory as it is. *)
Variable model_write : Disk -> write_outcome.
Variable scaler_write : Disk -> write_outcome.

(** The target column as a float array: what the regressor's input
    validation makes of each cell.  A null cell is NaN. *)
Definition cell_to_float (c : json) : result float :=
  match c with
  | JNull => Ok nan
  | JInt z => py_float_of_int z
  | JFloat f => Ok f
  | JStr s =>
      match float_of_str s with
      | Some f => Ok f
      | None => Raise ValueError
      end
  end.

Definition as_float_array (y : Series) : result (list float) :=
  match y with
  | SObject cells => result_mapM cell_to_float cells
  | SNumeric v => Ok (map feat_to_float v)
  | SDatetime _ => Raise ValueError
  end.

(** [self.scaler.fit_transform(X)]: [fit] first resets the scaler, then
    validates (at least one sample; NaN is allowed), then stores the
    statistics; the scaled matrix is returned. *)
Definition fit_transform (X : list frow) : M (list srow) :=
  (set_scaler None ;;;
   match X with
   | [] => raise ValueError
   | _ =>
       let p := scaler_stats X in
       set_scaler (Some p) ;;;
       ret (map (transform_row p) X)
   end)%py.

(** [self.model.fit(X_scaled, y)]: the input validation (all of [X]
    finite, [y] numeric and finite) comes before anything is stored. *)
Definition fit (X : list srow) (y : Series) : M unit :=
  (if negb (forallb row_finite X) then raise ValueError
   else
     yv <- lift (as_float_array y) ;;
     if negb (forallb is_finite yv) then raise ValueError
     else match lstsq X yv with
          | Some p => set_model (Some p)
          | None => raise LinAlgError
          end)%py.

(** [joblib.dump(self.model, 'sales_model.pkl')] *)
Definition dump_model : M unit := fun w =>
  match model_write (disk w) with
  | Written =>
      ({| forecast_model := forecast_model w;
          disk := {| sales_model_pkl := Some (Pickled (model (forecast_model w)));
                     scaler_pkl := scaler_pkl (disk w) |} |}, Ok tt)
  | Refused => (w, Raise (OSError "sales_model.pkl"))
  | Torn =>
      ({| forecast_model := forecast_model w;
          disk := {| sales_model_pkl := Some Corrupt;
                     scaler_pkl := scaler_pkl (disk w) |} |},
       Raise (OSError "sales_model.pkl"))
  end.

(** [joblib.dump(self.scaler, 'scaler.pkl')] *)
Definition dump_scaler : M unit := fun w =>
  match scaler_write (disk w) with
  | Written =>
      ({| forecast_model := forecast_model w;
          disk := {| sales_model_pkl := sales_model_pkl (disk w);
                     scaler_pkl := Some (Pickled (scaler (forecast_model w))) |} |}, Ok tt)
  | Refused => (w, Raise (OSError "scaler.pkl"))
  | Torn =>
      ({| forecast_model := forecast_model w;
          disk := {| sales_model_pkl := sales_model_pkl (disk w);
                     scaler_pkl := Some Corrupt |} |},
       Raise (OSError "scaler.pkl"))
  end.

(** [SalesForecastModel.train] *)
Definition train (sales_data : list record) : M unit :=
  (let df := DataFrame_of_records sales_data in
   col <- lift (getitem df "Date") ;;
   ts <- lift (to_datetime col) ;;
   let df := <["Date" := SDatetime ts]> df in
   fx <- lift (prepare_features df) ;;
   let df := fst fx in
   let X := snd fx in
   y <- lift (getitem df "Amount") ;;
   X_scaled <- fit_transform X ;;
   fit X_scaled y ;;;
   set_is_trained true ;;;
   dump_model ;;;
   dump_scaler)%py.

(** [SalesForecastModel.load_model] *)
Definition load_model : M unit :=
  (d <- get_disk ;;
   if exists_ (sales_model_pkl d) then
     m <- lift (joblib_load "sales_model.pkl" (sales_model_pkl d)) ;;
     set_model m ;;;
     s <- lift (joblib_load "scaler.pkl" (scaler_pkl d)) ;;
     set_scaler s ;;;
     set_is_trained true
   else ret tt)%py.

(** [self.scaler.transform(X)] *)
Definition transform (X : list frow) : M (list srow) :=
  (self <- get_self ;;
   match scaler self with
   | None => raise NotFittedError
   | Some p =>
       match X with
       | [] => raise ValueError
       | _ => ret (map (transform_row p) X)
       end
   end)%py.

(** [self.model.predict(X_scaled)] *)
Definition model_predict (X : list srow) : M (list float) :=
  (self <- get_self ;;
   match model self with
   | None => raise NotFittedError
   | Some p =>
       if negb (forallb row_finite X) then raise ValueError
       else ret (decision_function p X)
   end)%py.

(** [SalesForecastModel.predict] *)
Definition predict (future_dates : list json) : M (list float) :=
  (self <- get_self ;;
   (if negb (is_trained self) then load_model else ret tt) ;;;
   ts <- lift (to_datetime (SObject future_dates)) ;;
   let df : DataFrame := {[ "Date" := SDatetime ts ]} in
   fx <- lift (prepare_features df) ;;
   let X := snd fx in
   X_scaled <- transform X ;;
   model_predict X_scaled)%py.

(** *** The four routes *)

Definition health_check : World -> World * Response :=
  fun w => (w, (BStatus "healthy", 200)).

Definition train_model (req : TrainRequest) : World -> World * Response :=
  try_except
    (let sales_data := default [] (sales_data req) in
     train sales_data ;;;
     ret (BMessage "Model trained successfully"))%py.

Definition predict_sales (req : PredictRequest) : World -> World * Response :=
  try_except
    (let future_dates := default [] (dates req) in
     predictions <- predict future_dates ;;
     let result :=
       map (fun dp : json * float =>
              {| date := fst dp;
                 predicted_amount := snd dp;
                 confidence_interval := (snd dp * 0.15)%float |})
           (zip future_dates predictions) in
     ret (BPredictions result))%py.

Definition predict_customer_value (req : CustomerValueRequest)
  : World -> World * Response :=
  try_except
    (let customer_data := default ∅ (customer_data req) in
     let avg_order := default (PInt 0) (customer_data !! "average_order_value") in
     let frequency := default (PInt 0) (customer_data !! "order_frequency") in
     p <- lift (py_mul avg_order frequency) ;;
     predicted_clv <- lift (py_mul p (PInt 24)) ;;
     v <- lift (py_float predicted_clv) ;;
     ret (BCustomerValue v 0.8%float))%py.

(** *** The service as a whole: any sequence of requests *)

Inductive Request : Type :=
  | GetHealth
  | PostTrain (req : TrainRequest)
  | PostPredict (req : PredictRequest)
  | PostCustomerValue (req : CustomerValueRequest).

Definition handle (r : Request) : World -> World * Response :=
  match r with
  | GetHealth => health_check
  | PostTrain req => train_model req
  | PostPredict req => predict_sales req
  | PostCustomerValue req => predict_customer_value req
  end.

Fixpoint serve (rs : list Request) (w : World) : World * list Response :=
  match rs with
  | [] => (w, [])
  | r :: rs' =>
      let (w1, resp) := handle r w in
      let (w2, resps) := serve rs' w1 in
      (w2, resp :: resps)
  end.

(** *** Closed forms used in the statements below *)

(** The part of [train] that only reads its argument: building the frame,
    parsing the dates, extracting the features and picking the target
    column.  Any exception here comes before the first assignment to
    [self]. *)
Definition train_inputs (sales_data : list record) : result (list frow * Series) :=
  let df := DataFrame_of_records sales_data in
  result_bind (getitem df "Date") (fun col =>
  result_bind (to_datetime col) (fun ts =>
  let df := <["Date" := SDatetime ts]> df in
  result_bind (prepare_features df) (fun fx =>
  result_bind (getitem (fst fx) "Amount") (fun y =>
  Ok (snd fx, y))))).

(** The scaled feature row of one parsed date. *)
Definition scaled_row (s : ScalerParams) (t : option Timestamp) : srow :=
  transform_row s (features_of t).

(** What [predict] computes from the parsed dates once the model object
    is settled. *)
Definition forecast (self : SalesForecastModel) (ts : list (option Timestamp))
  : result (list float) :=
  match scaler self with
  | None => Raise NotFittedError
  | Some s =>
      match ts with
      | [] => Raise ValueError
      | _ =>
          match model self with
          | None => Raise NotFittedError
          | Some p =>
              if forallb row_finite (map (scaled_row s) ts)
              then Ok (decision_function p (map (scaled_row s) ts))
              else Raise ValueError
          end
      end
  end.

(** An action that never takes the model out of the trained state. *)
Definition keeps_trained {A} (m : M A) : Prop :=
  forall w, is_trained (forecast_model w) = true ->
            is_trained (forecast_model (fst (m w))) = true.

(** *** Further notions used in the statements below *)

(** The cells of column [k] of the frame built from the records [rs]. *)
Definition column_cells (k : string) (rs : list record) : list json :=
  (fun r : record => default JNull (r !! k)) <$> rs.

(** A calendar date: the month exists and the day exists in it. *)
Definition valid_date (t : Timestamp) : Prop :=
  1 <= month t <= 12 /\ 1 <= day t <= days_in_month (year t) (month t).


(** ** Properties *)

(** *** Auxiliary facts *)

Lemma float_mul_comm (x y : float) : (x * y)%float = (y * x)%float.
Proof.
  apply Prim2SF_inj. rewrite !mul_spec.
  destruct (Prim2SF x) as [s|s| |s m e], (Prim2SF y) as [s'|s'| |s' m' e'];
    simpl; try reflexivity; rewrite ?(xorb_comm s s'); try reflexivity.
  unfold SF64mul, SFmul.
  now rewrite (Pos.mul_comm m m'), (Z.add_comm e e').
Qed.

Lemma zip3_attributes (ts : list (option Timestamp)) :
  zip3 (attribute dayofyear ts) (attribute month ts) (attribute dayofweek ts)
  = map features_of ts.
Proof.
  induction ts as [|t ts IH]; simpl; [reflexivity|].
  now rewrite IH.
Qed.

Lemma prepare_features_datetime (data : DataFrame) ts :
  data !! "Date" = Some (SDatetime ts) ->
  prepare_features data = Ok (with_features ts data, map features_of ts).
Proof.
  intros HD. unfold prepare_features, select_features, numeric_column, dt, getitem.
  repeat (first [ rewrite HD | rewrite lookup_insert_eq
                | rewrite lookup_insert_ne by discriminate ];
          cbn [result_bind]).
  now rewrite zip3_attributes.
Qed.

Lemma prepare_features_inv (data data' : DataFrame) X :
  prepare_features data = Ok (data', X) ->
  exists ts, data !! "Date" = Some (SDatetime ts)
             /\ data' = with_features ts data /\ X = map features_of ts.
Proof.
  intros H.
  destruct (data !! "Date") as [[cells|ts|v]|] eqn:HD;
    try (unfold prepare_features, dt, getitem in H; rewrite HD in H; discriminate).
  rewrite (prepare_features_datetime _ _ HD) in H. injection H as <- <-.
  now exists ts.
Qed.

(** *** The feature extractor *)

(** C7 (as amended): on a frame whose [Date] column is a datetime
    column, [prepare_features] returns, for each date and in order, the
    triple (day_of_year, month, day_of_week); it has no other state to
    touch, but it does write to its input: the frame it was given comes
    back with the three feature columns stored under [day_of_year],
    [month] and [day_of_week], every other column, [Date] included, as
    it was. *)
Theorem prepare_features_effect (data data' : DataFrame) (X : list frow) :
  prepare_features data = Ok (data', X) ->
  exists ts,
    data !! "Date" = Some (SDatetime ts)
    /\ X = map features_of ts
    /\ length X = length ts
    /\ data' = with_features ts data
    /\ data' !! "day_of_year" = Some (SNumeric (attribute dayofyear ts))
    /\ data' !! "month" = Some (SNumeric (attribute month ts))
    /\ data' !! "day_of_week" = Some (SNumeric (attribute dayofweek ts))
    /\ forall c, c <> "day_of_year" -> c <> "month" -> c <> "day_of_week" ->
                 data' !! c = data !! c.
Proof.
  intros H. destruct (prepare_features_inv _ _ _ H) as (ts & HD & -> & ->).
  exists ts. unfold with_features.
  repeat split; try assumption; try reflexivity.
  - now rewrite length_map.
  - now rewrite !lookup_insert_ne, lookup_insert_eq by discriminate.
  - now rewrite lookup_insert_ne, lookup_insert_eq by discriminate.
  - now rewrite lookup_insert_eq.
  - intros c H1 H2 H3. now rewrite !lookup_insert_ne by congruence.
Qed.

(** *** The confidence band *)

(** C1: in every successful /predict response, each entry's
    [confidence_interval] is exactly 0.15 times that entry's
    [predicted_amount] (the same binary64 value). *)
Theorem confidence_interval_law (req : PredictRequest) (w w' : World)
    (rs : list Prediction) (code : Z) :
  predict_sales req w = (w', (BPredictions rs, code)) ->
  Forall (fun r => confidence_interval r = (0.15 * predicted_amount r)%float) rs.
Proof.
  unfold predict_sales, try_except, bind.
  destruct (predict _ w) as [w1 [preds|e]]; simpl; intros H; [|discriminate].
  injection H as _ <- _.
  apply Forall_map, Forall_forall. intros [d p] _. simpl.
  apply float_mul_comm.
Qed.

(** *** The customer-value heuristic *)

Lemma py_mul_24 (a f : pynum) :
  result_bind (py_mul a f) (fun p =>
    result_bind (py_mul p (PInt 24)) py_float)
  = lifetime_value_spec a f.
Proof.
  destruct a as [x|x], f as [y|y]; simpl; try reflexivity.
  - destruct (py_float_of_int x); reflexivity.
  - destruct (py_float_of_int y); reflexivity.
Qed.


(** *** Loading the artifacts *)

(** C10: [load_model] looks only at whether [sales_model.pkl] exists.
    Without it the call does nothing and raises nothing, whatever holds
    for [scaler.pkl]; with it and without [scaler.pkl] the call raises
    (the missing-file error of the second load when the first file is
    readable), after the regressor has been replaced and with
    [is_trained] as it was. *)
Theorem load_model_guard (w : World) :
  (sales_model_pkl (disk w) = None -> load_model w = (w, Ok tt))
  /\ (forall file, sales_model_pkl (disk w) = Some file ->
                   scaler_pkl (disk w) = None ->
        exists w' e,
          load_model w = (w', Raise e)
          /\ is_trained (forecast_model w') = is_trained (forecast_model w)
          /\ disk w' = disk w
          /\ forall m, file = Pickled m ->
               e = FileNotFoundError "scaler.pkl"
               /\ model (forecast_model w') = m).
Proof.
  destruct w as [self [mf sf]]. simpl. split.
  - intros ->. reflexivity.
  - intros file -> ->. destruct file as [m|].
    + eexists _, _. split; [reflexivity|]. simpl.
      split; [reflexivity|]. split; [reflexivity|].
      intros m' [= <-]. split; reflexivity.
    + eexists _, _. split; [reflexivity|]. simpl.
      split; [reflexivity|]. split; [reflexivity|].
      intros m' [=].
Qed.

(** *** Running the monad *)

Lemma bind_run {A B} (m : M A) (k : A -> M B) (w : World) :
  bind m k w = match m w with
               | (w', Ok a) => k a w'
               | (w', Raise e) => (w', Raise e)
               end.
Proof. reflexivity. Qed.

Lemma lift_run {A} (r : result A) (w : World) : lift r w = (w, r).
Proof. reflexivity. Qed.

(** *** [predict] in closed form *)

Lemma predict_tail (future_dates : list json) (w : World) :
  (ts <- lift (to_datetime (SObject future_dates)) ;;
   let df : DataFrame := {[ "Date" := SDatetime ts ]} in
   fx <- lift (prepare_features df) ;;
   let X := snd fx in
   X_scaled <- transform X ;;
   model_predict X_scaled)%py w
  = (w, result_bind (to_datetime (SObject future_dates)) (forecast (forecast_model w))).
Proof.
  rewrite bind_run, lift_run.
  destruct (to_datetime (SObject future_dates)) as [ts|e]; [|reflexivity].
  cbn [result_bind]. rewrite bind_run, lift_run.
  rewrite (prepare_features_datetime _ ts) by apply lookup_singleton_eq.
  cbn [snd]. unfold forecast, transform, model_predict, get_self.
  rewrite !bind_run.
  destruct (scaler (forecast_model w)) as [s|]; [|reflexivity].
  destruct ts as [|t ts]; [reflexivity|].
  cbn [map raise ret]. rewrite bind_run.
  destruct (model (forecast_model w)) as [p|]; [|reflexivity].
  assert (E : transform_row s (features_of t) :: map (transform_row s) (map features_of ts)
              = map (scaled_row s) (t :: ts)).
  { cbn [map]. now rewrite map_map. }
  rewrite E. destruct (forallb row_finite _); reflexivity.
Qed.

Lemma predict_trained (future_dates : list json) (w : World) :
  is_trained (forecast_model w) = true ->
  predict future_dates w
  = (w, result_bind (to_datetime (SObject future_dates)) (forecast (forecast_model w))).
Proof.
  intros H. unfold predict. rewrite bind_run. unfold get_self at 1.
  rewrite H. cbn [negb]. rewrite bind_run. unfold ret at 1.
  apply predict_tail.
Qed.

Lemma predict_untrained (future_dates : list json) (w : World) :
  is_trained (forecast_model w) = false ->
  predict future_dates w
  = match load_model w with
    | (w1, Ok _) =>
        (w1, result_bind (to_datetime (SObject future_dates)) (forecast (forecast_model w1)))
    | (w1, Raise e) => (w1, Raise e)
    end.
Proof.
  intros H. unfold predict. rewrite bind_run. unfold get_self at 1.
  rewrite H. cbn [negb]. rewrite bind_run.
  destruct (load_model w) as [w1 [[]|e]]; [|reflexivity].
  apply predict_tail.
Qed.

(** [load_model] in closed form. *)
Lemma load_model_run (w : World) :
  load_model w =
  match sales_model_pkl (disk w) with
  | None => (w, Ok tt)
  | Some file =>
      match joblib_load "sales_model.pkl" (Some file) with
      | Raise e => (w, Raise e)
      | Ok m =>
          let w1 := fst (set_model m w) in
          match joblib_load "scaler.pkl" (scaler_pkl (disk w)) with
          | Raise e => (w1, Raise e)
          | Ok s =>
              ({| forecast_model := {| model := m; scaler := s; is_trained := true |};
                  disk := disk w |}, Ok tt)
          end
      end
  end.
Proof.
  destruct w as [self [[[m|]|] [[s|]|]]]; reflexivity.
Qed.

(** *** [train] in closed form *)

Lemma train_split (sales_data : list record) (w : World) :
  train sales_data w =
  match train_inputs sales_data with
  | Raise e => (w, Raise e)
  | Ok (X, y) =>
      (X_scaled <- fit_transform X ;;
       fit X_scaled y ;;;
       set_is_trained true ;;;
       dump_model ;;;
       dump_scaler)%py w
  end.
Proof.
  unfold train, train_inputs.
  rewrite bind_run, lift_run.
  destruct (getitem _ "Date") as [col|e]; [|reflexivity].
  cbn [result_bind]. rewrite bind_run, lift_run.
  destruct (to_datetime col) as [ts|e]; [|reflexivity].
  cbn [result_bind]. rewrite bind_run, lift_run.
  destruct (prepare_features _) as [[df X]|e]; [|reflexivity].
  cbn [result_bind fst snd]. rewrite bind_run, lift_run.
  destruct (getitem df "Amount") as [y|e]; reflexivity.
Qed.

(** The trained world: what a successful [train] leaves. *)
Lemma train_ok (sales_data : list record) (w w' : World) (u : unit) :
  train sales_data w = (w', Ok u) ->
  exists X y p,
    train_inputs sales_data = Ok (X, y)
    /\ forecast_model w' =
         {| model := Some p; scaler := Some (scaler_stats X); is_trained := true |}
    /\ disk w' =
         {| sales_model_pkl := Some (Pickled (Some p));
            scaler_pkl := Some (Pickled (Some (scaler_stats X))) |}.
Proof.
  rewrite train_split.
  destruct (train_inputs sales_data) as [[X y]|e]; [|discriminate].
  intros H. exists X, y.
  unfold fit_transform, fit in H. rewrite !bind_run in H.
  destruct X as [|x X]; [discriminate|].
  cbn [set_scaler fst snd ret] in H. rewrite !bind_run in H.
  cbn [set_scaler forecast_model model scaler is_trained disk ret] in H.
  destruct (negb (forallb row_finite _)); [discriminate|].
  rewrite !bind_run, lift_run in H.
  destruct (as_float_array y) as [yv|e]; [|discriminate].
  destruct (negb (forallb is_finite yv)); [discriminate|].
  destruct (lstsq _ yv) as [p|]; [|discriminate].
  exists p. unfold bind, dump_model, dump_scaler in H. cbn in H.
  destruct (model_write _); cbn in H; try discriminate.
  destruct (scaler_write _); cbn in H; try discriminate.
  injection H as <-. cbn. auto.
Qed.

(** *** Preservation of the trained state *)

Lemma keeps_bind {A B} (m : M A) (k : A -> M B) :
  keeps_trained m -> (forall a, keeps_trained (k a)) -> keeps_trained (bind m k).
Proof.
  intros Hm Hk w Hw. rewrite bind_run. specialize (Hm w Hw).
  destruct (m w) as [w1 [a|e]]; simpl in *; [now apply Hk | assumption].
Qed.

Lemma keeps_ret {A} (a : A) : keeps_trained (ret a).
Proof. now intros w Hw. Qed.

Lemma keeps_raise {A} (e : exn) : keeps_trained (@raise A e).
Proof. now intros w Hw. Qed.

Lemma keeps_lift {A} (r : result A) : keeps_trained (lift r).
Proof. now intros w Hw. Qed.

Lemma keeps_get_self : keeps_trained get_self.
Proof. now intros w Hw. Qed.

Lemma keeps_get_disk : keeps_trained get_disk.
Proof. now intros w Hw. Qed.

Lemma keeps_set_model (m : LinearRegression) : keeps_trained (set_model m).
Proof. now intros w Hw. Qed.

Lemma keeps_set_scaler (s : StandardScaler) : keeps_trained (set_scaler s).
Proof. now intros w Hw. Qed.

Lemma keeps_set_is_trained : keeps_trained (set_is_trained true).
Proof. now intros w Hw. Qed.

Lemma keeps_dump_model : keeps_trained dump_model.
Proof. intros w Hw. unfold dump_model. now destruct (model_write (disk w)). Qed.

Lemma keeps_dump_scaler : keeps_trained dump_scaler.
Proof. intros w Hw. unfold dump_scaler. now destruct (scaler_write (disk w)). Qed.

Create HintDb keeps discriminated.
#[local] Hint Resolve keeps_ret keeps_raise keeps_lift keeps_get_self keeps_get_disk
  keeps_set_model keeps_set_scaler keeps_set_is_trained keeps_dump_model
  keeps_dump_scaler : keeps.

Ltac keeps :=
  repeat first
    [ solve [auto with keeps]
    | apply keeps_bind; [|intros ?]
    | progress cbv zeta
    | match goal with
      | |- keeps_trained (match ?x with _ => _ end) => destruct x
      end ].

Lemma keeps_load_model : keeps_trained load_model.
Proof. unfold load_model. keeps. Qed.

Lemma keeps_train (sales_data : list record) : keeps_trained (train sales_data).
Proof. unfold train, fit_transform, fit. keeps. Qed.

Lemma keeps_predict (future_dates : list json) : keeps_trained (predict future_dates).
Proof.
  pose proof keeps_load_model.
  unfold predict, transform, model_predict. keeps; assumption.
Qed.

Lemma try_except_world (m : M Body) (w : World) :
  fst (try_except m w) = fst (m w).
Proof. unfold try_except. now destruct (m w) as [w1 [b|e]]. Qed.

Lemma keeps_handle (r : Request) (w : World) :
  is_trained (forecast_model w) = true ->
  is_trained (forecast_model (fst (handle r w))) = true.
Proof.
  pose proof keeps_train. pose proof keeps_predict.
  destruct r as [|req|req|req]; simpl; intros Hw; [assumption| | |];
    unfold train_model, predict_sales, predict_customer_value;
    rewrite try_except_world;
    match goal with |- context [fst (?m w)] => assert (Hk : keeps_trained m) end;
    try (now apply Hk); keeps; auto.
Qed.

Lemma keeps_serve (rs : list Request) (w : World) :
  is_trained (forecast_model w) = true ->
  is_trained (forecast_model (fst (serve rs w))) = true.
Proof.
  revert w. induction rs as [|r rs IH]; intros w Hw; simpl; [assumption|].
  pose proof (keeps_handle r w Hw) as H1.
  destruct (handle r w) as [w1 resp]. simpl in H1.
  specialize (IH w1 H1). now destruct (serve rs w1) as [w2 resps].
Qed.

(** C9: the trained state is absorbing.  From a world in which
    [is_trained] is true, every method of the model ([train],
    [predict], [load_model], failing or not) and every sequence of
    requests to the four routes ends in a world in which it is still
    true. *)
Theorem trained_is_absorbing (rs : list Request) (w : World) :
  is_trained (forecast_model w) = true ->
  is_trained (forecast_model (fst (serve rs w))) = true
  /\ (forall sales_data, is_trained (forecast_model (fst (train sales_data w))) = true)
  /\ (forall future_dates, is_trained (forecast_model (fst (predict future_dates w))) = true)
  /\ is_trained (forecast_model (fst (load_model w))) = true.
Proof.
  intros Hw. split; [now apply keeps_serve|].
  split; [intros sd; now apply keeps_train|].
  split; [intros ds; now apply keeps_predict|].
  now apply keeps_load_model.
Qed.

(** *** Predictions *)

Lemma predict_ok_inv (future_dates : list json) (w w' : World) (preds : list float) :
  predict future_dates w = (w', Ok preds) ->
  exists ts p s,
    to_datetime (SObject future_dates) = Ok ts
    /\ model (forecast_model w') = Some p
    /\ scaler (forecast_model w') = Some s
    /\ preds = decision_function p (map (scaled_row s) ts).
Proof.
  assert (tail : forall self, result_bind (to_datetime (SObject future_dates)) (forecast self)
                              = Ok preds ->
            exists ts p s,
              to_datetime (SObject future_dates) = Ok ts
              /\ model self = Some p /\ scaler self = Some s
              /\ preds = decision_function p (map (scaled_row s) ts)).
  { intros self. destruct (to_datetime (SObject future_dates)) as [ts|e]; [|discriminate].
    cbn [result_bind]. unfold forecast.
    destruct (scaler self) as [s|]; [|discriminate].
    destruct ts as [|t ts]; [discriminate|].
    destruct (model self) as [p|]; [|discriminate].
    destruct (forallb row_finite _); [|discriminate].
    intros [= <-]. now exists (t :: ts), p, s. }
  destruct (is_trained (forecast_model w)) eqn:Htr.
  - rewrite predict_trained by assumption. intros [= <- H]. now apply tail.
  - rewrite predict_untrained by assumption.
    destruct (load_model w) as [w1 [[]|e]]; [|discriminate].
    intros [= <- H]. now apply tail.
Qed.

Lemma Forall2_compose_map {A B C D} (R : A -> B -> Prop) (S : C -> D -> Prop)
    (g : B -> C) (l : list A) (k : list B) (vs : list D) :
  Forall2 R l k -> Forall2 S (map g k) vs ->
  Forall2 (fun a v => exists b, R a b /\ S (g b) v) l vs.
Proof.
  intros H. revert vs. induction H as [|a b l k Hab _ IH]; intros vs Hvs.
  - inversion Hvs. constructor.
  - inversion Hvs as [|? v ? vs' Hv Hvs']; subst. constructor; [now exists b|].
    now apply IH.
Qed.

Lemma Forall2_entries (P : json -> float -> Prop) (ds : list json) (vs : list float) :
  Forall2 P ds vs ->
  Forall2 (fun d r => date r = d /\ P d (predicted_amount r)) ds
    (map (fun dp : json * float =>
            {| date := fst dp;
               predicted_amount := snd dp;
               confidence_interval := (snd dp * 0.15)%float |})
         (zip ds vs)).
Proof.
  induction 1 as [|d v ds vs Hdv _ IH]; cbn; constructor.
  - now split.
  - exact IH.
Qed.

(** C3: whenever /predict succeeds there is exactly one result per input
    date, in the order of the input: the i-th result carries the i-th
    date of the request, and its amount is the regressor's value for the
    scaled features of the timestamp that this very date denotes.  The
    two library routines keep positions by contract, and the theorem
    holds for whatever that contract is: [denotes] relates an input cell
    to the timestamp [pandas.to_datetime] returns at its position,
    [value_of] relates a row to the value the regressor returns at its
    position; a parser that permuted its output would not meet the first
    hypothesis for any relation that tells two dates apart. *)
Theorem predict_order_preserving
    (denotes : json -> option Timestamp -> Prop)
    (value_of : LRParams -> srow -> float -> Prop)
    (req : PredictRequest) (w w' : World) (rs : list Prediction) (code : Z) :
  (forall l ts, to_datetime (SObject l) = Ok ts -> Forall2 denotes l ts) ->
  (forall p X, Forall2 (value_of p) X (decision_function p X)) ->
  predict_sales req w = (w', (BPredictions rs, code)) ->
  let future_dates := default [] (dates req) in
  exists p s,
    model (forecast_model w') = Some p
    /\ scaler (forecast_model w') = Some s
    /\ length rs = length future_dates
    /\ map date rs = future_dates
    /\ snd (predict future_dates w) = Ok (map predicted_amount rs)
    /\ Forall2 (fun d r =>
                  date r = d
                  /\ exists t, denotes d t
                               /\ value_of p (scaled_row s t) (predicted_amount r))
               future_dates rs.
Proof.
  intros Hdt Hdf H future_dates.
  unfold predict_sales, try_except in H. rewrite bind_run in H.
  fold future_dates in H.
  destruct (predict future_dates w) as [w1 [preds|e]] eqn:Hp; [|discriminate].
  cbn in H. injection H as <- <- _.
  destruct (predict_ok_inv _ _ _ _ Hp) as (ts & p & s & Hts & Hm & Hs & Hpreds).
  exists p, s.
  assert (HF : Forall2 (fun d v => exists t, denotes d t /\ value_of p (scaled_row s t) v)
                       future_dates preds).
  { apply (Forall2_compose_map denotes (value_of p) (scaled_row s) _ ts).
    - now apply Hdt.
    - rewrite Hpreds. apply Hdf. }
  assert (Hl : length future_dates = length preds) by exact (Forall2_length _ _ _ HF).
  split; [assumption|]. split; [assumption|].
  split; [now rewrite length_map, length_zip_with, Hl, Nat.min_id|].
  split; [rewrite map_map; cbn [date fst]; apply fst_zip; lia|].
  split; [cbn [snd]; f_equal; rewrite map_map; cbn [predicted_amount snd];
          symmetry; apply snd_zip; lia|].
  exact (Forall2_entries _ _ _ HF).
Qed.

(** C4 (as amended): in the untrained state [predict] first attempts
    [load_model], and that attempt is the only thing it does to the
    state.  In a fresh process with no artifact on disk, [predict] never
    succeeds: it raises the scaler's not-fitted error when the dates
    parse, and the date parser's own error when they do not; /predict
    turns either into an error response with status 500. *)
Theorem predict_untrained_fails (future_dates : list json) (w : World) :
  is_trained (forecast_model w) = false ->
  fst (predict future_dates w) = fst (load_model w)
  /\ predict future_dates (start no_artifacts)
     = (start no_artifacts,
        Raise match to_datetime (SObject future_dates) with
              | Ok _ => NotFittedError
              | Raise e => e
              end)
  /\ predict_sales {| dates := Some future_dates |} (start no_artifacts)
     = (start no_artifacts,
        (BError match to_datetime (SObject future_dates) with
                | Ok _ => NotFittedError
                | Raise e => e
                end, 500)).
Proof.
  intros Hw.
  assert (Hstart : predict future_dates (start no_artifacts)
     = (start no_artifacts,
        Raise match to_datetime (SObject future_dates) with
              | Ok _ => NotFittedError
              | Raise e => e
              end)).
  { rewrite predict_untrained by reflexivity. cbn.
    now destruct (to_datetime (SObject future_dates)). }
  split; [|split].
  - rewrite predict_untrained by assumption.
    now destruct (load_model w) as [w1 [[]|e]].
  - exact Hstart.
  - unfold predict_sales, try_except. rewrite bind_run.
    change (default [] (dates {| dates := Some future_dates |})) with future_dates.
    now rewrite Hstart.
Qed.

(** *** Failing and succeeding [train] *)


(** C8: persistence round trip.  After a successful [train], a fresh
    process started in the working directory that [train] left loads the
    two artifacts on its first [predict] and from there on is in the
    very state of the process that trained: the same predictions (or the
    same error) for the same dates, from [predict] and from /predict. *)
Theorem persistence_round_trip (sales : list record) (w w' : World) (u : unit) :
  train sales w = (w', Ok u) ->
  (forall future_dates,
      predict future_dates (start (disk w')) = predict future_dates w')
  /\ (forall preq, predict_sales preq (start (disk w')) = predict_sales preq w').
Proof.
  intros H. destruct (train_ok _ _ _ _ H) as (X & y & p & _ & Hself & Hdisk).
  assert (Hp : forall future_dates,
             predict future_dates (start (disk w')) = predict future_dates w').
  { intros ds.
    rewrite (predict_trained ds w') by now rewrite Hself.
    rewrite predict_untrained by reflexivity.
    rewrite load_model_run. cbn [start disk]. rewrite Hdisk. cbn.
    rewrite <- Hself, <- Hdisk. now destruct w' as [? ?]. }
  split; [exact Hp|].
  intros preq. unfold predict_sales, try_except. rewrite !bind_run.
  now rewrite Hp.
Qed.

(** ** Further properties of the service *)

(** *** Frames built from records *)

Lemma DataFrame_of_records_lookup (rs : list record) (k : string) (s : Series) :
  DataFrame_of_records rs !! k = Some s <->
  (exists r, r ∈ rs /\ is_Some (r !! k)) /\ s = SObject (column_cells k rs).
Proof.
  unfold DataFrame_of_records. rewrite lookup_set_to_map.
  - split.
    + intros (y & Hy & [= -> <-]). split; [|reflexivity].
      apply elem_of_union_list in Hy as (X & HX & Hy).
      apply list_elem_of_fmap in HX as (r & -> & Hr).
      exists r. split; [assumption|]. now apply elem_of_dom.
    + intros [(r & Hr & Hk) ->]. exists k. split; [|reflexivity].
      apply elem_of_union_list. exists (dom r). split.
      * apply list_elem_of_fmap. now exists r.
      * now apply elem_of_dom.
  - intros y y' _ _. simpl. congruence.
Qed.

Lemma DataFrame_of_records_None (rs : list record) (k : string) :
  (forall r, r ∈ rs -> r !! k = None) -> DataFrame_of_records rs !! k = None.
Proof.
  intros H. destruct (DataFrame_of_records rs !! k) as [s|] eqn:E; [|reflexivity].
  apply DataFrame_of_records_lookup in E as [(r & Hr & [v Hv]) _].
  rewrite (H r Hr) in Hv. discriminate.
Qed.

Lemma DataFrame_of_records_Some (rs : list record) (k : string) (r : record) :
  r ∈ rs -> is_Some (r !! k) ->
  DataFrame_of_records rs !! k = Some (SObject (column_cells k rs)).
Proof.
  intros Hr Hk. apply DataFrame_of_records_lookup. split; [|reflexivity].
  now exists r.
Qed.

(** *** What [train] reads *)

Lemma train_inputs_inv (sales : list record) (X : list frow) (y : Series) :
  train_inputs sales = Ok (X, y) ->
  exists ts,
    to_datetime (SObject (column_cells "Date" sales)) = Ok ts
    /\ X = map features_of ts
    /\ y = SObject (column_cells "Amount" sales).
Proof.
  unfold train_inputs, getitem.
  destruct (DataFrame_of_records sales !! "Date") as [col|] eqn:HD; [|discriminate].
  apply DataFrame_of_records_lookup in HD as [_ ->].
  cbn [result_bind].
  destruct (to_datetime _) as [ts|e]; [|discriminate].
  cbn [result_bind].
  rewrite (prepare_features_datetime _ ts) by apply lookup_insert_eq.
  cbn [result_bind fst snd]. unfold with_features.
  rewrite !lookup_insert_ne by discriminate.
  destruct (DataFrame_of_records sales !! "Amount") as [col|] eqn:HA; [|discriminate].
  apply DataFrame_of_records_lookup in HA as [_ ->].
  intros [= <-]. now exists ts.
Qed.

(** X1: a /train request in which no record has a [Date] key (no
    [sales_data] at all, an empty list, or records without dates) is
    answered with the error [KeyError('Date')] and status 500, and
    changes nothing; so is, with [KeyError('Amount')], a request whose
    dates parse but in which no record has an [Amount] key. *)
Theorem train_missing_column (req : TrainRequest) (w : World) :
  let sales := default [] (sales_data req) in
  ((forall r, r ∈ sales -> r !! "Date" = None) ->
   train_model req w = (w, (BError (KeyError "Date"), 500)))
  /\ (forall r0 ts,
        r0 ∈ sales -> is_Some (r0 !! "Date") ->
        to_datetime (SObject (column_cells "Date" sales)) = Ok ts ->
        (forall r, r ∈ sales -> r !! "Amount" = None) ->
        train_model req w = (w, (BError (KeyError "Amount"), 500))).
Proof.
  intros sales. split.
  - intros H. unfold train_model, try_except. rewrite bind_run. fold sales.
    rewrite train_split. unfold train_inputs, getitem.
    now rewrite (DataFrame_of_records_None _ _ H).
  - intros r0 ts Hr0 Hd Hts Ha.
    unfold train_model, try_except. rewrite bind_run. fold sales.
    rewrite train_split. unfold train_inputs, getitem.
    rewrite (DataFrame_of_records_Some _ _ _ Hr0 Hd). cbn [result_bind].
    rewrite Hts. cbn [result_bind].
    rewrite (prepare_features_datetime _ ts) by apply lookup_insert_eq.
    cbn [result_bind fst snd]. unfold with_features.
    rewrite !lookup_insert_ne by discriminate.
    now rewrite (DataFrame_of_records_None _ _ Ha).
Qed.

(** X2: a /train call that answers with a message has status 200 and
    the message [Model trained successfully]; the model is then in the
    trained state with a fitted regressor and a fitted scaler, and the
    two artifact files hold exactly these two objects, whatever the
    files held before. *)
Theorem successful_train_persists (req : TrainRequest) (w w' : World)
    (msg : string) (code : Z) :
  train_model req w = (w', (BMessage msg, code)) ->
  code = 200
  /\ msg = "Model trained successfully"
  /\ is_trained (forecast_model w') = true
  /\ exists p s,
       model (forecast_model w') = Some p
       /\ scaler (forecast_model w') = Some s
       /\ sales_model_pkl (disk w') = Some (Pickled (model (forecast_model w')))
       /\ scaler_pkl (disk w') = Some (Pickled (scaler (forecast_model w'))).
Proof.
  unfold train_model, try_except. rewrite bind_run.
  destruct (train _ w) as [w1 [[]|e]] eqn:Ht; cbn; [|discriminate].
  intros [= <- <- <-].
  destruct (train_ok _ _ _ _ Ht) as (X & y & p & _ & Hself & Hdisk).
  rewrite Hself, Hdisk. cbn.
  split; [reflexivity|]. split; [reflexivity|]. split; [reflexivity|].
  now exists p, (scaler_stats X).
Qed.

(** X3: the outcome of [train] does not depend on the in-memory model it
    starts from: on the same records and with the same working
    directory it succeeds or raises the same exception from any two
    models, and when it succeeds it ends in the same state (nothing of
    an earlier in-memory model survives). *)
Theorem train_forgets_the_past (sales : list record) (w1 w2 : World) :
  disk w1 = disk w2 ->
  snd (train sales w1) = snd (train sales w2)
  /\ (forall u, snd (train sales w1) = Ok u ->
                fst (train sales w1) = fst (train sales w2)).
Proof.
  destruct w1 as [self1 d1], w2 as [self2 d2]. cbn [disk]. intros <-.
  rewrite !train_split.
  destruct (train_inputs sales) as [[X y]|e]; [|split; [reflexivity|discriminate]].
  unfold fit_transform, fit. rewrite !bind_run.
  destruct X as [|x X]; [split; [reflexivity|discriminate]|].
  cbn [set_scaler fst snd ret]. rewrite !bind_run.
  cbn [set_scaler forecast_model model scaler is_trained disk ret].
  destruct (negb (forallb row_finite _)); [split; [reflexivity|discriminate]|].
  rewrite !bind_run, !lift_run.
  destruct (as_float_array y) as [yv|e]; [|split; [reflexivity|discriminate]].
  destruct (negb (forallb is_finite yv)); [split; [reflexivity|discriminate]|].
  destruct (lstsq _ yv) as [p|]; [|split; [reflexivity|discriminate]].
  unfold bind, dump_model, dump_scaler. cbn.
  destruct (model_write d1); cbn; [|split; [reflexivity|discriminate]..].
  destruct (scaler_write _); cbn; split; try reflexivity; discriminate.
Qed.

(** *** Training, then predicting *)

Lemma train_ok_checks (sales : list record) (w w' : World) (u : unit) :
  train sales w = (w', Ok u) ->
  exists X y p,
    train_inputs sales = Ok (X, y)
    /\ X <> []
    /\ forallb row_finite (map (transform_row (scaler_stats X)) X) = true
    /\ forecast_model w' =
         {| model := Some p; scaler := Some (scaler_stats X); is_trained := true |}.
Proof.
  rewrite train_split.
  destruct (train_inputs sales) as [[X y]|e]; [|discriminate].
  intros H. exists X, y.
  unfold fit_transform, fit in H. rewrite !bind_run in H.
  destruct X as [|x X]; [discriminate|].
  cbn [set_scaler fst snd ret] in H. rewrite !bind_run in H.
  cbn [set_scaler forecast_model model scaler is_trained disk ret] in H.
  destruct (forallb row_finite _) eqn:Hfin; [|discriminate].
  cbn [negb] in H. rewrite !bind_run, lift_run in H.
  destruct (as_float_array y) as [yv|e]; [|discriminate].
  destruct (negb (forallb is_finite yv)); [discriminate|].
  destruct (lstsq _ yv) as [p|]; [|discriminate].
  exists p. unfold bind, dump_model, dump_scaler in H. cbn in H.
  destruct (model_write _); cbn in H; try discriminate.
  destruct (scaler_write _); cbn in H; try discriminate.
  injection H as <-. cbn. auto.
Qed.

(** X4: after a successful [train], [predict] on the dates of the
    training records (the [Date] cells, in order) raises nothing and
    leaves the state alone: it returns what the regressor just fitted
    computes for the scaled feature rows of the timestamps the training
    parsed (these rows passed the regressor's input check during the
    fit, so they pass it again). *)
Theorem predict_after_train (sales : list record) (w w' : World) (u : unit) :
  train sales w = (w', Ok u) ->
  exists ts p s,
    to_datetime (SObject (column_cells "Date" sales)) = Ok ts
    /\ ts <> []
    /\ model (forecast_model w') = Some p
    /\ scaler (forecast_model w') = Some s
    /\ predict (column_cells "Date" sales) w'
       = (w', Ok (decision_function p (map (scaled_row s) ts))).
Proof.
  intros H. destruct (train_ok_checks _ _ _ _ H) as (X & y & p & Hin & HX & Hfin & Hself).
  destruct (train_inputs_inv _ _ _ Hin) as (ts & Hts & -> & _).
  exists ts, p, (scaler_stats (map features_of ts)).
  split; [assumption|].
  split; [now intros ->|].
  rewrite Hself. cbn [model scaler]. split; [reflexivity|]. split; [reflexivity|].
  rewrite predict_trained by now rewrite Hself.
  rewrite Hts. cbn [result_bind]. unfold forecast. rewrite Hself. cbn [model scaler].
  destruct ts as [|t ts]; [now destruct HX|].
  rewrite map_map in Hfin. unfold scaled_row. now rewrite Hfin.
Qed.


(** *** Who touches the files, and when the files are read *)

Lemma load_model_disk (w : World) : disk (fst (load_model w)) = disk w.
Proof. rewrite load_model_run. now destruct w as [self [[[m|]|] [[s|]|]]]. Qed.

Lemma predict_disk (future_dates : list json) (w : World) :
  disk (fst (predict future_dates w)) = disk w.
Proof.
  destruct (is_trained (forecast_model w)) eqn:Htr.
  - now rewrite predict_trained.
  - rewrite predict_untrained by assumption.
    pose proof (load_model_disk w) as H.
    now destruct (load_model w) as [w1 [[]|e]].
Qed.

Lemma predict_customer_value_run (req : CustomerValueRequest) (w : World) :
  predict_customer_value req w =
    (w, customer_value_response
          (lifetime_value_spec (field_or_zero req "average_order_value")
                               (field_or_zero req "order_frequency"))).
Proof.
  rewrite <- py_mul_24.
  assert (fields : forall k,
             default (PInt 0) (default ∅ (customer_data req) !! k) = field_or_zero req k).
  { intros k. unfold field_or_zero. destruct req as [[cd|]]; simpl.
    - now destruct (cd !! k).
    - now rewrite lookup_empty. }
  unfold predict_customer_value. rewrite !fields.
  generalize (field_or_zero req "average_order_value")
             (field_or_zero req "order_frequency").
  intros a f. unfold try_except, bind, lift, ret.
  destruct (py_mul a f) as [p|e]; simpl; [|reflexivity].
  destruct (py_mul p (PInt 24)) as [q|e]; simpl; [|reflexivity].
  destruct (py_float q); reflexivity.
Qed.

Lemma predict_sales_world (req : PredictRequest) (w : World) :
  fst (predict_sales req w) = fst (predict (default [] (dates req)) w).
Proof.
  unfold predict_sales. rewrite try_except_world, bind_run.
  now destruct (predict _ w) as [w1 [preds|e]].
Qed.

(** X5: /train is the only route that writes the artifact files: a
    request to /health, /predict or /customer-value, whether it succeeds
    or fails, leaves both files as they were. *)
Theorem only_train_writes_files (r : Request) (w : World) :
  (forall req, r <> PostTrain req) ->
  disk (fst (handle r w)) = disk w.
Proof.
  intros Hr. destruct r as [|req|req|req]; cbn [handle].
  - reflexivity.
  - now destruct (Hr req).
  - rewrite predict_sales_world. apply predict_disk.
  - now rewrite predict_customer_value_run.
Qed.

(** X6: once the model is trained, /predict is read-only and never looks
    at the artifact files: it leaves the whole process state as it is,
    and its answer is the same whatever the two files hold. *)
Theorem trained_predict_is_read_only (req : PredictRequest) (w : World) (d : Disk) :
  is_trained (forecast_model w) = true ->
  fst (predict_sales req w) = w
  /\ snd (predict_sales req {| forecast_model := forecast_model w; disk := d |})
     = snd (predict_sales req w).
Proof.
  intros Htr. split.
  - rewrite predict_sales_world. now rewrite predict_trained.
  - unfold predict_sales, try_except. rewrite !bind_run.
    rewrite !predict_trained by assumption. cbn [forecast_model].
    now destruct (result_bind _ _).
Qed.

(** X7: in an untrained process whose two artifact files are readable,
    the first [predict] loads them whether or not the prediction itself
    then succeeds: afterwards the model is trained and holds exactly the
    two loaded objects, and the files are untouched. *)
Theorem first_predict_loads (future_dates : list json) (w : World)
    (m : LinearRegression) (s : StandardScaler) :
  is_trained (forecast_model w) = false ->
  sales_model_pkl (disk w) = Some (Pickled m) ->
  scaler_pkl (disk w) = Some (Pickled s) ->
  fst (predict future_dates w)
  = {| forecast_model := {| model := m; scaler := s; is_trained := true |};
       disk := disk w |}.
Proof.
  intros Htr Hm Hs. rewrite predict_untrained by assumption.
  rewrite load_model_run, Hm, Hs. reflexivity.
Qed.

(** *** The customer-value heuristic, continued *)

Lemma lifetime_value_spec_comm (a f : pynum) :
  lifetime_value_spec a f = lifetime_value_spec f a.
Proof.
  destruct a as [x|x], f as [y|y]; cbn [lifetime_value_spec].
  - now rewrite (Z.mul_comm x y).
  - destruct (py_float_of_int x) as [fx|e]; cbn [result_bind]; [|reflexivity].
    now rewrite (float_mul_comm fx y).
  - destruct (py_float_of_int y) as [fy|e]; cbn [result_bind]; [|reflexivity].
    now rewrite (float_mul_comm x fy).
  - now rewrite (float_mul_comm x y).
Qed.

(** X8: /customer-value is symmetric in its two fields: exchanging the
    values of [average_order_value] and [order_frequency] gives the same
    response, the same float or the same error. *)
Theorem customer_value_symmetric (a f : pynum) (w : World) :
  predict_customer_value
    {| customer_data :=
         Some (<["average_order_value" := a]> {[ "order_frequency" := f ]}) |} w
  = predict_customer_value
      {| customer_data :=
           Some (<["average_order_value" := f]> {[ "order_frequency" := a ]}) |} w.
Proof.
  rewrite !predict_customer_value_run. unfold field_or_zero. cbn [customer_data].
  rewrite !lookup_insert_eq.
  rewrite !lookup_insert_ne, !lookup_singleton_eq by discriminate.
  now rewrite lifetime_value_spec_comm.
Qed.

(** *** The shape of the responses *)

(** X9: every route answers in one of two shapes.  /health always
    answers [healthy] with status 200 and changes nothing; each POST
    route answers either with its own success body and status 200 (the
    fixed message for /train, a list of predictions for /predict, a value
    with confidence 0.8 for /customer-value) or with an error body and
    status 500, never with a mix of the two. *)
Theorem response_shapes (r : Request) (w : World) :
  let resp := snd (handle r w) in
  match r with
  | GetHealth => resp = (BStatus "healthy", 200) /\ fst (handle r w) = w
  | PostTrain _ =>
      resp = (BMessage "Model trained successfully", 200)
      \/ exists e, resp = (BError e, 500)
  | PostPredict _ =>
      (exists rs, resp = (BPredictions rs, 200))
      \/ exists e, resp = (BError e, 500)
  | PostCustomerValue _ =>
      (exists v, resp = (BCustomerValue v 0.8%float, 200))
      \/ exists e, resp = (BError e, 500)
  end.
Proof.
  destruct r as [|req|req|req]; cbn [handle].
  - now split.
  - unfold train_model, try_except. rewrite bind_run.
    destruct (train _ w) as [w1 [[]|e]]; cbn; [now left|right; now exists e].
  - unfold predict_sales, try_except. rewrite bind_run.
    destruct (predict _ w) as [w1 [preds|e]]; cbn; [left; eauto|right; now exists e].
  - rewrite predict_customer_value_run. cbn.
    destruct (lifetime_value_spec _ _) as [v|e]; cbn; [left; eauto|right; now exists e].
Qed.

(** *** The feature extractor, continued *)

Lemma with_features_idempotent (ts : list (option Timestamp)) (data : DataFrame) :
  with_features ts (with_features ts data) = with_features ts data.
Proof.
  apply map_eq. intros k. unfold with_features.
  rewrite !lookup_insert. repeat case_decide; reflexivity.
Qed.

(** X10: [prepare_features] is idempotent: run again on the frame it
    has just written to, it succeeds, returns the same features and
    leaves that frame as it is. *)
Theorem prepare_features_idempotent (data data' : DataFrame) (X : list frow) :
  prepare_features data = Ok (data', X) ->
  prepare_features data' = Ok (data', X).
Proof.
  intros H. destruct (prepare_features_inv _ _ _ H) as (ts & HD & -> & ->).
  rewrite (prepare_features_datetime _ ts).
  - now rewrite with_features_idempotent.
  - unfold with_features. now rewrite !lookup_insert_ne by discriminate.
Qed.

(** X11: for every calendar date the three features are in their
    ranges: [day_of_year] in 1..366 (1..365 outside leap years),
    [month] in 1..12 and [day_of_week] in 0..6. *)
Theorem features_in_range (t : Timestamp) :
  valid_date t ->
  1 <= dayofyear t <= 366
  /\ (is_leap (year t) = false -> dayofyear t <= 365)
  /\ 1 <= month t <= 12
  /\ 0 <= dayofweek t <= 6.
Proof.
  destruct t as [y m d]. unfold valid_date, dayofyear, dayofweek. cbn [year month day].
  intros [Hm Hd].
  assert (Hw : 0 <= (toordinal (mkTimestamp y m d) + 6) mod 7 <= 6).
  { pose proof (Z.mod_pos_bound (toordinal (mkTimestamp y m d) + 6) 7). lia. }
  revert Hw. generalize ((toordinal (mkTimestamp y m d) + 6) mod 7). intros wd Hw.
  assert (Hcases : m = 1 \/ m = 2 \/ m = 3 \/ m = 4 \/ m = 5 \/ m = 6 \/ m = 7
                   \/ m = 8 \/ m = 9 \/ m = 10 \/ m = 11 \/ m = 12) by lia.
  unfold days_in_month, days_before_month in *.
  destruct (is_leap y);
    repeat (destruct Hcases as [->|Hcases]); try subst m;
    simpl in Hd |- *; repeat split; try lia; intros; try discriminate; lia.
Qed.

(** X12: with only one of the two fields present and an integer in it,
    /customer-value answers 0.0 with confidence 0.8 and status 200,
    however large that integer is: the product with the default 0 is
    taken on integers, so nothing can overflow. *)
Theorem missing_field_gives_zero (x : Z) (w : World) :
  predict_customer_value
    {| customer_data := Some {[ "average_order_value" := PInt x ]} |} w
  = (w, (BCustomerValue 0%float 0.8%float, 200))
  /\ predict_customer_value
       {| customer_data := Some {[ "order_frequency" := PInt x ]} |} w
     = (w, (BCustomerValue 0%float 0.8%float, 200)).
Proof.
  rewrite !predict_customer_value_run. unfold field_or_zero. cbn [customer_data].
  rewrite !lookup_singleton_eq, !lookup_singleton_ne by discriminate.
  cbn [lifetime_value_spec].
  rewrite Z.mul_0_r, Z.mul_0_l. split; reflexivity.
Qed.

(** *** A half-persisted model *)

(** X13: an untrained process that finds the regressor file readable
    but no scaler file cannot predict: every /predict in any sequence of
    /predict requests is answered with the missing-file error of
    [scaler.pkl] and status 500, whatever its dates, and the model is
    still untrained at the end (so the next /predict tries the load
    again). *)
Theorem half_persisted_predict_stuck (reqs : list PredictRequest) (w : World)
    (m : LinearRegression) :
  is_trained (forecast_model w) = false ->
  sales_model_pkl (disk w) = Some (Pickled m) ->
  scaler_pkl (disk w) = None ->
  snd (serve (map PostPredict reqs) w)
  = map (fun _ => (BError (FileNotFoundError "scaler.pkl"), 500)) reqs
  /\ is_trained (forecast_model (fst (serve (map PostPredict reqs) w))) = false
  /\ disk (fst (serve (map PostPredict reqs) w)) = disk w.
Proof.
  revert w. induction reqs as [|req reqs IH]; intros w Htr Hm Hs.
  - now cbn.
  - cbn [map serve handle].
    assert (H1 : predict_sales req w
                 = (fst (set_model m w),
                    (BError (FileNotFoundError "scaler.pkl"), 500))).
    { unfold predict_sales, try_except. rewrite bind_run.
      rewrite predict_untrained by assumption.
      now rewrite load_model_run, Hm, Hs. }
    rewrite H1.
    destruct (IH (fst (set_model m w))) as (IH1 & IH2 & IH3); try assumption.
    destruct (serve (map PostPredict reqs) (fst (set_model m w))) as [w2 resps].
    cbn in *. now rewrite IH1.
Qed.

(** *** A dump that fails *)


End Service.

(** ** The service on concrete requests

    The statements above, run with the reference routines. *)

Abbreviation ref_train :=
  (train iso_to_datetime naive_scaler_stats mean_lstsq no_float_of_str
     always_written always_written).
Abbreviation ref_train_model :=
  (train_model iso_to_datetime naive_scaler_stats mean_lstsq no_float_of_str
     always_written always_written).
Abbreviation ref_predict := (predict iso_to_datetime naive_decision_function).
Abbreviation ref_predict_sales := (predict_sales iso_to_datetime naive_decision_function).
Abbreviation ref_handle :=
  (handle iso_to_datetime naive_scaler_stats mean_lstsq no_float_of_str
     naive_decision_function always_written always_written).
Abbreviation ref_serve :=
  (serve iso_to_datetime naive_scaler_stats mean_lstsq no_float_of_str
     naive_decision_function always_written always_written).

Lemma result_mapM_length {A B} (f : A -> result B) (l : list A) (bs : list B) :
  result_mapM f l = Ok bs -> length bs = length l.
Proof.
  revert bs. induction l as [|a l IH]; intros bs; simpl.
  - now intros [= <-].
  - destruct (f a) as [b|e]; simpl; [|discriminate].
    destruct (result_mapM f l) as [bs'|e]; simpl; [|discriminate].
    intros [= <-]. simpl. now rewrite (IH bs').
Qed.

Lemma iso_to_datetime_length (l : list json) (ts : list (option Timestamp)) :
  iso_to_datetime (SObject l) = Ok ts -> length ts = length l.
Proof. apply result_mapM_length. Qed.

Lemma result_mapM_Forall2 {A B} (f : A -> result B) (l : list A) (bs : list B) :
  result_mapM f l = Ok bs -> Forall2 (fun a b => f a = Ok b) l bs.
Proof.
  revert bs. induction l as [|a l IH]; intros bs; simpl.
  - intros [= <-]. constructor.
  - destruct (f a) as [b|e] eqn:Hb; simpl; [|discriminate].
    destruct (result_mapM f l) as [bs'|e]; simpl; [|discriminate].
    intros [= <-]. constructor; [assumption|now apply IH].
Qed.

Lemma iso_to_datetime_positional (l : list json) (ts : list (option Timestamp)) :
  iso_to_datetime (SObject l) = Ok ts -> Forall2 (fun d t => iso_cell d = Ok t) l ts.
Proof. apply result_mapM_Forall2. Qed.

Lemma naive_decision_function_positional (p : LRParams) (X : list srow) :
  Forall2 (fun x v => v = predict_row p x) X (naive_decision_function p X).
Proof.
  unfold naive_decision_function. induction X as [|x X IH]; simpl; constructor; auto.
Qed.

(** C7, the claim as stated: on the one-row frame that [predict] builds
    for 2024-01-01, [prepare_features] succeeds and the frame it was
    given is not what it was: it has a [month] column now. *)
Lemma prepare_features_modifies_its_input :
  exists data' X,
    prepare_features example_frame = Ok (data', X)
    /\ example_frame !! "month" = None
    /\ data' !! "month" = Some (SNumeric [Some 1])
    /\ data' <> example_frame.
Proof.
  exists (with_features [Some jan_first] example_frame), [features_of (Some jan_first)].
  split; [now apply prepare_features_datetime|].
  split; [reflexivity|].
  assert (H : with_features [Some jan_first] example_frame !! "month"
              = Some (SNumeric [Some 1])).
  { unfold with_features. now rewrite lookup_insert_ne, lookup_insert_eq. }
  split; [exact H|].
  intros E. rewrite E in H. discriminate.
Qed.

Lemma prepare_features_effect_witness :
  prepare_features example_frame
  = Ok (with_features [Some jan_first] example_frame, [(Some 1, Some 1, Some 0)])
  /\ exists ts,
      example_frame !! "Date" = Some (SDatetime ts)
      /\ [(Some 1, Some 1, Some 0)] = map features_of ts.
Proof.
  assert (H : prepare_features example_frame
              = Ok (with_features [Some jan_first] example_frame, [(Some 1, Some 1, Some 0)])).
  { now apply prepare_features_datetime. }
  split; [exact H|].
  destruct (prepare_features_effect _ _ _ H) as (ts & H1 & H2 & _).
  exists ts. split; assumption.
Defined.

Lemma confidence_interval_law_witness :
  ref_predict_sales {| dates := Some [JStr "2024-01-03"] |} trained_world
  = (trained_world,
     (BPredictions [ {| date := JStr "2024-01-03";
                        predicted_amount := 3%float;
                        confidence_interval := (3 * 0.15)%float |} ], 200))
  /\ Forall (fun r => confidence_interval r = (0.15 * predicted_amount r)%float)
            [ {| date := JStr "2024-01-03";
                 predicted_amount := 3%float;
                 confidence_interval := (3 * 0.15)%float |} ].
Proof.
  assert (H : ref_predict_sales {| dates := Some [JStr "2024-01-03"] |}
                trained_world
              = (trained_world,
                 (BPredictions [ {| date := JStr "2024-01-03";
                                    predicted_amount := 3%float;
                                    confidence_interval := (3 * 0.15)%float |} ], 200))).
  { vm_compute. reflexivity. }
  split; [exact H|].
  exact (confidence_interval_law _ _ _ _ _ _ _ H).
Defined.

Lemma predict_order_preserving_witness :
  exists rs,
    ref_predict_sales
      {| dates := Some [JStr "2024-01-01"; JStr "2024-06-15"; JStr "2024-12-31"] |}
      trained_world
    = (trained_world, (BPredictions rs, 200))
    /\ length rs = 3%nat
    /\ Forall2 (fun d r =>
                  date r = d
                  /\ exists t, iso_cell d = Ok t
                               /\ predicted_amount r
                                  = predict_row example_regressor
                                      (scaled_row example_scaler t))
               [JStr "2024-01-01"; JStr "2024-06-15"; JStr "2024-12-31"] rs.
Proof.
  destruct (ref_predict_sales
              {| dates := Some [JStr "2024-01-01"; JStr "2024-06-15"; JStr "2024-12-31"] |}
              trained_world) as [w' [b code]] eqn:H.
  vm_compute in H.
  injection H as <- <- <-.
  eexists. split; [reflexivity|].
  destruct (predict_order_preserving iso_to_datetime naive_decision_function
              (fun d t => iso_cell d = Ok t) (fun p x v => v = predict_row p x)
              {| dates := Some [JStr "2024-01-01"; JStr "2024-06-15"; JStr "2024-12-31"] |}
              trained_world trained_world _ 200
              iso_to_datetime_positional naive_decision_function_positional
              ltac:(vm_compute; reflexivity))
    as (p & s & Hp & Hs & Hl & _ & _ & HF).
  injection Hp as <-. injection Hs as <-.
  split; [exact Hl | exact HF].
Defined.

(** C4, the claim as stated: in a fresh process with no artifact on
    disk, [predict] on a string that is not a date raises the parser's
    error, not the not-fitted error. *)
Lemma predict_untrained_parse_error :
  ref_predict [JStr "not a date"] (start no_artifacts)
  = (start no_artifacts, Raise ParserError)
  /\ snd (ref_predict [JStr "not a date"] (start no_artifacts))
     <> Raise NotFittedError.
Proof.
  split; [vm_compute; reflexivity|].
  vm_compute. discriminate.
Qed.

Lemma predict_untrained_fails_witness :
  is_trained (forecast_model (start regressor_only)) = false
  /\ fst (ref_predict [JStr "2024-01-01"] (start regressor_only))
     = fst (load_model (start regressor_only))
  /\ ref_predict [JStr "2024-01-01"] (start no_artifacts)
     = (start no_artifacts, Raise NotFittedError).
Proof.
  split; [reflexivity|].
  destruct (predict_untrained_fails iso_to_datetime naive_decision_function
              [JStr "2024-01-01"] (start regressor_only) eq_refl) as (H1 & H2 & _).
  split; [exact H1 | exact H2].
Defined.



Lemma persistence_round_trip_witness :
  ref_train
    [sale "2024-01-01" (JFloat 100)] (start no_artifacts)
  = (single_sale_world, Ok tt)
  /\ ref_predict [JStr "2024-06-15"] (start (disk single_sale_world))
     = ref_predict [JStr "2024-06-15"] single_sale_world.
Proof.
  assert (H : ref_train
                [sale "2024-01-01" (JFloat 100)] (start no_artifacts)
              = (single_sale_world, Ok tt)).
  { vm_compute. reflexivity. }
  split; [exact H|].
  exact (proj1 (persistence_round_trip _ _ _ _ naive_decision_function _ _ _ _ _ _ H)
           [JStr "2024-06-15"]).
Defined.

Lemma trained_is_absorbing_witness :
  is_trained (forecast_model trained_world) = true
  /\ is_trained (forecast_model (fst
       (ref_serve
          [ PostTrain {| sales_data := Some [sale "2024-03-05" JNull] |};
            PostPredict {| dates := Some [JStr "not a date"] |};
            GetHealth;
            PostCustomerValue {| customer_data := None |};
            PostTrain {| sales_data := None |} ]
          trained_world))) = true.
Proof.
  split; [reflexivity|].
  exact (proj1 (trained_is_absorbing _ _ _ _ _ _ _ _ trained_world eq_refl)).
Defined.

Lemma load_model_guard_witness :
  load_model (start scaler_only) = (start scaler_only, Ok tt)
  /\ exists w' e, load_model (start regressor_only) = (w', Raise e)
                  /\ e = FileNotFoundError "scaler.pkl".
Proof.
  split.
  - exact (proj1 (load_model_guard (start scaler_only)) eq_refl).
  - destruct (proj2 (load_model_guard (start regressor_only)) _ eq_refl eq_refl)
      as (w' & e & H1 & _ & _ & H4).
    exists w', e. split; [exact H1|].
    exact (proj1 (H4 _ eq_refl)).
Defined.

(** *** The further properties on concrete requests *)

Lemma train_missing_column_witness :
  ref_train_model
    {| sales_data := None |} trained_world
  = (trained_world, (BError (KeyError "Date"), 500))
  /\ ref_train_model
       {| sales_data := Some [ {[ "Date" := JStr "2024-01-01" ]} ] |} trained_world
     = (trained_world, (BError (KeyError "Amount"), 500)).
Proof.
  split.
  - apply (proj1 (train_missing_column iso_to_datetime naive_scaler_stats mean_lstsq
                    no_float_of_str always_written always_written
                    {| sales_data := None |} trained_world)).
    intros r Hr. inversion Hr.
  - apply (proj2 (train_missing_column iso_to_datetime naive_scaler_stats mean_lstsq
                    no_float_of_str always_written always_written
                    {| sales_data := Some [ {[ "Date" := JStr "2024-01-01" ]} ] |}
                    trained_world)
             {[ "Date" := JStr "2024-01-01" ]} [Some jan_first]).
    + constructor.
    + exists (JStr "2024-01-01"). reflexivity.
    + vm_compute. reflexivity.
    + intros r Hr. inversion Hr as [|? ? ? Hr']; subst; [reflexivity|inversion Hr'].
Defined.

Lemma successful_train_persists_witness :
  ref_train_model
    {| sales_data := Some [sale "2024-01-01" (JFloat 100)] |} (start regressor_only)
  = (single_sale_world, (BMessage "Model trained successfully", 200))
  /\ is_trained (forecast_model single_sale_world) = true
  /\ sales_model_pkl (disk single_sale_world)
     = Some (Pickled (model (forecast_model single_sale_world))).
Proof.
  assert (H : ref_train_model
                {| sales_data := Some [sale "2024-01-01" (JFloat 100)] |}
                (start regressor_only)
              = (single_sale_world, (BMessage "Model trained successfully", 200))).
  { vm_compute. reflexivity. }
  split; [exact H|].
  destruct (successful_train_persists _ _ _ _ _ _ _ _ _ _ _ H)
    as (_ & _ & Htr & p & s & _ & _ & Hm & _).
  split; [exact Htr | exact Hm].
Defined.

Lemma train_forgets_the_past_witness :
  disk (start both_artifacts) = disk trained_world
  /\ snd (ref_train [sale "2024-01-01" (JFloat 100)] (start both_artifacts)) = Ok tt
  /\ fst (ref_train [sale "2024-01-01" (JFloat 100)] (start both_artifacts))
     = fst (ref_train [sale "2024-01-01" (JFloat 100)] trained_world).
Proof.
  assert (H : snd (ref_train [sale "2024-01-01" (JFloat 100)] (start both_artifacts))
              = Ok tt).
  { vm_compute. reflexivity. }
  split; [reflexivity|]. split; [exact H|].
  exact (proj2 (train_forgets_the_past iso_to_datetime naive_scaler_stats mean_lstsq
                  no_float_of_str always_written always_written _
                  (start both_artifacts) trained_world eq_refl) tt H).
Defined.

Lemma predict_after_train_witness :
  ref_train [sale "2024-01-01" (JFloat 100)] (start no_artifacts)
  = (single_sale_world, Ok tt)
  /\ exists preds,
       ref_predict [JStr "2024-01-01"] single_sale_world
       = (single_sale_world, Ok preds).
Proof.
  assert (H : ref_train [sale "2024-01-01" (JFloat 100)] (start no_artifacts)
              = (single_sale_world, Ok tt)).
  { vm_compute. reflexivity. }
  split; [exact H|].
  destruct (predict_after_train iso_to_datetime naive_scaler_stats mean_lstsq
              no_float_of_str naive_decision_function always_written always_written
              _ _ _ _ H)
    as (ts & p & s & _ & _ & _ & _ & Hp).
  eexists. exact Hp.
Defined.



Lemma only_train_writes_files_witness :
  disk (fst (ref_handle
               (PostPredict {| dates := Some [JStr "2024-01-01"] |})
               (start both_artifacts)))
  = both_artifacts.
Proof.
  apply (only_train_writes_files iso_to_datetime naive_scaler_stats mean_lstsq
           no_float_of_str naive_decision_function always_written always_written
           (PostPredict {| dates := Some [JStr "2024-01-01"] |}) (start both_artifacts)).
  intros req. discriminate.
Defined.

Lemma trained_predict_is_read_only_witness :
  is_trained (forecast_model trained_world) = true
  /\ fst (ref_predict_sales {| dates := Some [JStr "2024-01-03"] |}
            trained_world) = trained_world
  /\ snd (ref_predict_sales {| dates := Some [JStr "2024-01-03"] |}
            {| forecast_model := forecast_model trained_world; disk := no_artifacts |})
     = snd (ref_predict_sales {| dates := Some [JStr "2024-01-03"] |}
              trained_world).
Proof.
  split; [reflexivity|].
  exact (trained_predict_is_read_only iso_to_datetime naive_decision_function
           {| dates := Some [JStr "2024-01-03"] |} trained_world no_artifacts eq_refl).
Defined.

Lemma first_predict_loads_witness :
  snd (ref_predict [JStr "not a date"] (start both_artifacts))
  = Raise ParserError
  /\ fst (ref_predict [JStr "not a date"] (start both_artifacts))
     = trained_world.
Proof.
  split; [vm_compute; reflexivity|].
  exact (first_predict_loads iso_to_datetime naive_decision_function
           [JStr "not a date"] (start both_artifacts)
           (Some example_regressor) (Some example_scaler) eq_refl eq_refl eq_refl).
Defined.

Lemma prepare_features_idempotent_witness :
  prepare_features (with_features [Some jan_first] example_frame)
  = Ok (with_features [Some jan_first] example_frame, [(Some 1, Some 1, Some 0)]).
Proof.
  apply (prepare_features_idempotent example_frame).
  now apply prepare_features_datetime.
Defined.

Lemma features_in_range_witness :
  valid_date (mkTimestamp 2024 12 31)
  /\ dayofyear (mkTimestamp 2024 12 31) = 366
  /\ 1 <= dayofyear (mkTimestamp 2024 12 31) <= 366
  /\ 0 <= dayofweek (mkTimestamp 2024 12 31) <= 6.
Proof.
  assert (H : valid_date (mkTimestamp 2024 12 31)).
  { unfold valid_date. repeat split; vm_compute; discriminate. }
  split; [exact H|]. split; [reflexivity|].
  destruct (features_in_range _ H) as (H1 & _ & _ & H4).
  split; [exact H1 | exact H4].
Defined.

Lemma half_persisted_predict_stuck_witness :
  snd (ref_serve
         [ PostPredict {| dates := Some [JStr "2024-01-01"] |};
           PostPredict {| dates := None |} ]
         (start regressor_only))
  = [ (BError (FileNotFoundError "scaler.pkl"), 500);
      (BError (FileNotFoundError "scaler.pkl"), 500) ].
Proof.
  exact (proj1 (half_persisted_predict_stuck iso_to_datetime naive_scaler_stats
                  mean_lstsq no_float_of_str naive_decision_function
                  always_written always_written
                  [ {| dates := Some [JStr "2024-01-01"] |}; {| dates := None |} ]
                  (start regressor_only) (Some example_regressor)
                  eq_refl eq_refl eq_refl)).
Defined.

